(** * boden: Window and UiLength

  A shallow embedding of

  - [bdn::ui::Window] (Window.cpp): [orientationToString], the constructor,
    [childViews], [removeAllChildViews], [childViewStolen], [bindViewCore];
  - [bdn::UiLength] (UiLength.h): the unit enumeration, both constructors,
    [operator==] and [operator!=].

  C++ [double] is IEEE 754 binary64 and is embedded as Rocq's primitive
  [float]; [int] values are embedded as [Z]; [std::shared_ptr<View>] is an
  optional object identity, [None] being [nullptr]. *)

From Stdlib Require Import ZArith Floats.
From stdpp Require Import base decidable countable gmap strings list.

#[local] Open Scope Z_scope.

(* ===================================================================== *)
(** ** UiLength.h                                                         *)
(* ===================================================================== *)

Module UiLength.

(** [enum Unit { sem, realPixel, pixel96 }]. *)
Inductive Unit : Set := sem | realPixel | pixel96.

#[global] Instance Unit_eq_dec : EqDecision Unit.
Proof. solve_decision. Defined.

(** The enumerators' integer values: an unscoped enum without initialisers
    counts from 0, and [unit == o.unit] compares these. *)
Definition Unit_value (u : Unit) : Z :=
  match u with sem => 0 | realPixel => 1 | pixel96 => 2 end.

(** The two data members [Unit unit; double value;]. *)
Record t : Set := mk { unit : Unit; value : float }.

(** [UiLength() { unit = sem; value = 0; }] *)
Definition default : t := {| unit := sem; value := 0%float |}.

(** [UiLength(Unit unit, double value)] *)
Definition make (unit : Unit) (value : float) : t :=
  {| unit := unit; value := value |}.

(** [bool operator==(const UiLength& o) const
      { return (unit==o.unit && value==o.value); }] *)
Definition eq (self o : t) : bool :=
  (Unit_value (unit self) =? Unit_value (unit o)) &&
  PrimFloat.eqb (value self) (value o).

(** [bool operator!=(const UiLength& o) const { return !operator==(o); }] *)
Definition ne (self o : t) : bool := negb (eq self o).

(** *** The interface of the class, reified

    Every member function of [UiLength] with the types of its parameters
    (the object itself first, for a non-static member) and of its result:
    the four the header declares, and the copy constructor and copy
    assignment the compiler declares implicitly.  [denote] ties each
    entry to its definition, so the table cannot drift from the
    embedding. *)
Inductive Ty : Set := TyUnit | TyDouble | TyBool | TyUiLength.

Definition TyD (ty : Ty) : Set :=
  match ty with
  | TyUnit => Unit
  | TyDouble => float
  | TyBool => bool
  | TyUiLength => t
  end.




Fixpoint FunD (ps : list Ty) (r : Ty) : Set :=
  match ps with
  | [] => TyD r
  | p :: ps => TyD p -> FunD ps r
  end.


(** The unit of an argument, when the argument is a length. *)
Definition unit_given (ty : Ty) : TyD ty -> list Unit :=
  match ty as ty0 return TyD ty0 -> list Unit with
  | TyUiLength => fun l => [unit l]
  | _ => fun _ => []
  end.

(** A result converts the lengths [given] when some length was given
    and the result is a length in a unit none of them had, or is a bare
    number. *)
Definition converted (given : list Unit) (r : Ty) : TyD r -> Prop :=
  match r as r0 return TyD r0 -> Prop with
  | TyUiLength => fun l => given <> [] /\ forall u, In u given -> unit l <> u
  | TyDouble => fun _ => given <> []
  | _ => fun _ => False
  end.

Fixpoint converts_from (given : list Unit) (ps : list Ty) (r : Ty)
  : FunD ps r -> Prop :=
  match ps as ps0 return FunD ps0 r -> Prop with
  | [] => fun res => converted given r res
  | p :: ps' => fun f =>
      exists x : TyD p, converts_from (unit_given p x ++ given) ps' r (f x)
  end.




End UiLength.

(* ===================================================================== *)
(** ** Window.cpp                                                         *)
(* ===================================================================== *)

(** [Window::Orientation] is an enum class used as a bit mask; a value is
    modelled by its underlying integer. *)
Definition Orientation : Set := Z.

(** [std::shared_ptr<View>]: the identity of the view pointed to, or
    [None] for [nullptr].  [==] on shared pointers compares identities. *)
Definition ViewRef : Set := nat.
Definition shared_ptr_View : Set := option ViewRef.

(** *** What Window.cpp takes from headers

    Window.cpp includes bdn/ui/Window.h, bdn/Application.h and others,
    which this development does not embed.  Whatever the file uses of
    them is a parameter here, so that every result below holds for each
    way the headers may define it. *)
Class Headers : Type := {
  (* Window.h: the enumerators of Window::Orientation *)
  Portrait : Orientation;
  LandscapeLeft : Orientation;
  LandscapeRight : Orientation;
  PortraitUpsideDown : Orientation;
  All : Orientation;
  (* the value type of the geometry properties *)
  Rect : Type;
  (* View.h: the factory handed to the constructor, and the registry macro *)
  ViewCoreFactory : Type;
  VIEW_CORE_REGISTER : ViewCoreFactory -> ViewCoreFactory;
  (* the helper object behind the member _contentView; update receives
     shared_from_this(), which is the window itself, and the new child *)
  SingleChildHelper : Type;
  SingleChildHelper_update :
    SingleChildHelper -> shared_ptr_View -> SingleChildHelper;
  (* Property.h: does assigning [new] over [old] notify onChange()? *)
  Property_notifies : shared_ptr_View -> shared_ptr_View -> bool;
  (* Application.h: threads, and the test for the main thread *)
  Thread : Type;
  isMainThread : Thread -> bool
}.

(** [orientation & Orientation::X] used as a condition.  The operator
    comes with the enum class in Window.h; for a bit mask it is the
    bitwise and of the underlying integers, and the condition holds when
    that is not zero. *)
Definition has_flag (orientation flag : Orientation) : bool :=
  negb (Z.land orientation flag =? 0).

(** *** std::stringstream, as far as orientationToString uses it

    A fresh stream holds nothing; [<<] appends; [tellp] is the put
    position, the number of characters written so far; [str] is the
    content. *)
Record stringstream : Set := { written : string }.

Definition stringstream_new : stringstream := {| written := "" |}.

Definition put (str : stringstream) (s : string) : stringstream :=
  {| written := written str +:+ s |}.

Definition tellp (str : stringstream) : Z :=
  Z.of_nat (String.length (written str)).

Definition str_of (str : stringstream) : string := written str.

(** [String Window::orientationToString(Window::Orientation orientation)] *)
Definition orientationToString `{Headers} (orientation : Orientation) : string :=
  let str := stringstream_new in
  let str :=
    if has_flag orientation Portrait then put str "Portrait" else str in
  let str :=
    if has_flag orientation LandscapeLeft then
      let str := if negb (tellp str =? 0) then put str " | " else str in
      put str "LandscapeLeft"
    else str in
  let str :=
    if has_flag orientation LandscapeRight then
      let str := if negb (tellp str =? 0) then put str " | " else str in
      put str "LandscapeRight"
    else str in
  let str :=
    if has_flag orientation PortraitUpsideDown then
      let str := if negb (tellp str =? 0) then put str " | " else str in
      put str "PortraitUpsideDown"
    else str in
  str_of str.

(** The same result in the words of its description: the flags in their
    fixed order, each with its name; the names of those set in the mask;
    the names joined by [" | "]. *)
Definition orientation_flags `{Headers} : list (Orientation * string) :=
  [ (Portrait, "Portrait"); (LandscapeLeft, "LandscapeLeft");
    (LandscapeRight, "LandscapeRight");
    (PortraitUpsideDown, "PortraitUpsideDown") ].

Definition names_of_set_flags `{Headers} (orientation : Orientation)
  : list string :=
  List.map snd
    (List.filter (fun f => has_flag orientation (fst f)) orientation_flags).

Definition joined_flag_names `{Headers} (orientation : Orientation) : string :=
  String.concat " | " (names_of_set_flags orientation).

(** *** The window object *)

(** The properties of a window that Window.cpp names. *)
Inductive WindowProperty : Set :=
| prop_visible
| prop_allowedOrientations
| prop_currentOrientation
| prop_title
| prop_contentView
| prop_geometry
| prop_contentGeometry
| prop_internalContentGeometry.

(** The properties of the core: the five of [Window::Core] that
    bindViewCore names, and those inherited from [View::Core], by name. *)
Inductive CoreProperty : Set :=
| core_contentView
| core_title
| core_allowedOrientations
| core_currentOrientation
| core_contentGeometry
| core_of_View (name : string).

#[global] Instance WindowProperty_eq_dec : EqDecision WindowProperty.
Proof. solve_decision. Defined.

#[global] Instance CoreProperty_eq_dec : EqDecision CoreProperty.
Proof. solve_decision. Defined.

Definition CoreProperty_code (c : CoreProperty) : nat + string :=
  match c with
  | core_contentView => inl 0%nat
  | core_title => inl 1%nat
  | core_allowedOrientations => inl 2%nat
  | core_currentOrientation => inl 3%nat
  | core_contentGeometry => inl 4%nat
  | core_of_View name => inr name
  end.

Definition CoreProperty_decode (x : nat + string) : CoreProperty :=
  match x with
  | inl 0%nat => core_contentView
  | inl 1%nat => core_title
  | inl 2%nat => core_allowedOrientations
  | inl 3%nat => core_currentOrientation
  | inl _ => core_contentGeometry
  | inr name => core_of_View name
  end.

#[global] Instance CoreProperty_countable : Countable CoreProperty.
Proof.
  refine (inj_countable' CoreProperty_code CoreProperty_decode _).
  intros c. destruct c; reflexivity.
Defined.

(** A subscriber of [contentView.onChange()].  The only one Window.cpp
    installs is the lambda of the constructor,
    [_contentView.update(shared_from_this(), property.get())]. *)
Inductive Subscriber : Set := update_contentView_helper.

(** The state of a window: the value of each property, the subscribers of
    [contentView.onChange()], the helper [_contentView], the properties
    registered as core creating, and for each property of the core the
    window property it is bound to. *)
Record Window `{Headers} : Type := mkWindow {
  viewCoreFactory : ViewCoreFactory;
  visible : bool;
  allowedOrientations : Orientation;
  currentOrientation : Orientation;
  title : string;
  contentView : shared_ptr_View;
  geometry : Rect;
  contentGeometry : Rect;
  internalContentGeometry : Rect;
  contentView_onChange : list Subscriber;
  _contentView : SingleChildHelper;
  coreCreatingProperties : list WindowProperty;
  coreBindings : gmap CoreProperty WindowProperty
}.

(** [View::bindViewCore], of the base class, lives in View.cpp, which is
    not embedded: it may be any transformation of the object. *)
Class ViewBase `{Headers} : Type := {
  View_bindViewCore : Window -> Window
}.

(** *** Field updates

    One function per member that Window.cpp writes: the object with that
    member replaced and every other member kept. *)
Definition set_viewCoreFactory `{Headers} (x : ViewCoreFactory) (w : Window) : Window :=
  {| viewCoreFactory := x;
     visible := visible w;
     allowedOrientations := allowedOrientations w;
     currentOrientation := currentOrientation w;
     title := title w;
     contentView := contentView w;
     geometry := geometry w;
     contentGeometry := contentGeometry w;
     internalContentGeometry := internalContentGeometry w;
     contentView_onChange := contentView_onChange w;
     _contentView := _contentView w;
     coreCreatingProperties := coreCreatingProperties w;
     coreBindings := coreBindings w |}.

Definition set_visible `{Headers} (x : bool) (w : Window) : Window :=
  {| viewCoreFactory := viewCoreFactory w;
     visible := x;
     allowedOrientations := allowedOrientations w;
     currentOrientation := currentOrientation w;
     title := title w;
     contentView := contentView w;
     geometry := geometry w;
     contentGeometry := contentGeometry w;
     internalContentGeometry := internalContentGeometry w;
     contentView_onChange := contentView_onChange w;
     _contentView := _contentView w;
     coreCreatingProperties := coreCreatingProperties w;
     coreBindings := coreBindings w |}.

Definition set_allowedOrientations `{Headers} (x : Orientation) (w : Window) : Window :=
  {| viewCoreFactory := viewCoreFactory w;
     visible := visible w;
     allowedOrientations := x;
     currentOrientation := currentOrientation w;
     title := title w;
     contentView := contentView w;
     geometry := geometry w;
     contentGeometry := contentGeometry w;
     internalContentGeometry := internalContentGeometry w;
     contentView_onChange := contentView_onChange w;
     _contentView := _contentView w;
     coreCreatingProperties := coreCreatingProperties w;
     coreBindings := coreBindings w |}.

Definition set_title `{Headers} (x : string) (w : Window) : Window :=
  {| viewCoreFactory := viewCoreFactory w;
     visible := visible w;
     allowedOrientations := allowedOrientations w;
     currentOrientation := currentOrientation w;
     title := x;
     contentView := contentView w;
     geometry := geometry w;
     contentGeometry := contentGeometry w;
     internalContentGeometry := internalContentGeometry w;
     contentView_onChange := contentView_onChange w;
     _contentView := _contentView w;
     coreCreatingProperties := coreCreatingProperties w;
     coreBindings := coreBindings w |}.

Definition set_contentView `{Headers} (x : shared_ptr_View) (w : Window) : Window :=
  {| viewCoreFactory := viewCoreFactory w;
     visible := visible w;
     allowedOrientations := allowedOrientations w;
     currentOrientation := currentOrientation w;
     title := title w;
     contentView := x;
     geometry := geometry w;
     contentGeometry := contentGeometry w;
     internalContentGeometry := internalContentGeometry w;
     contentView_onChange := contentView_onChange w;
     _contentView := _contentView w;
     coreCreatingProperties := coreCreatingProperties w;
     coreBindings := coreBindings w |}.

Definition set_contentView_onChange `{Headers} (x : list Subscriber) (w : Window) : Window :=
  {| viewCoreFactory := viewCoreFactory w;
     visible := visible w;
     allowedOrientations := allowedOrientations w;
     currentOrientation := currentOrientation w;
     title := title w;
     contentView := contentView w;
     geometry := geometry w;
     contentGeometry := contentGeometry w;
     internalContentGeometry := internalContentGeometry w;
     contentView_onChange := x;
     _contentView := _contentView w;
     coreCreatingProperties := coreCreatingProperties w;
     coreBindings := coreBindings w |}.

Definition set_helper `{Headers} (x : SingleChildHelper) (w : Window) : Window :=
  {| viewCoreFactory := viewCoreFactory w;
     visible := visible w;
     allowedOrientations := allowedOrientations w;
     currentOrientation := currentOrientation w;
     title := title w;
     contentView := contentView w;
     geometry := geometry w;
     contentGeometry := contentGeometry w;
     internalContentGeometry := internalContentGeometry w;
     contentView_onChange := contentView_onChange w;
     _contentView := x;
     coreCreatingProperties := coreCreatingProperties w;
     coreBindings := coreBindings w |}.

Definition set_coreCreatingProperties `{Headers} (x : list WindowProperty) (w : Window) : Window :=
  {| viewCoreFactory := viewCoreFactory w;
     visible := visible w;
     allowedOrientations := allowedOrientations w;
     currentOrientation := currentOrientation w;
     title := title w;
     contentView := contentView w;
     geometry := geometry w;
     contentGeometry := contentGeometry w;
     internalContentGeometry := internalContentGeometry w;
     contentView_onChange := contentView_onChange w;
     _contentView := _contentView w;
     coreCreatingProperties := x;
     coreBindings := coreBindings w |}.

Definition set_coreBindings `{Headers} (x : gmap CoreProperty WindowProperty) (w : Window) : Window :=
  {| viewCoreFactory := viewCoreFactory w;
     visible := visible w;
     allowedOrientations := allowedOrientations w;
     currentOrientation := currentOrientation w;
     title := title w;
     contentView := contentView w;
     geometry := geometry w;
     contentGeometry := contentGeometry w;
     internalContentGeometry := internalContentGeometry w;
     contentView_onChange := contentView_onChange w;
     _contentView := _contentView w;
     coreCreatingProperties := coreCreatingProperties w;
     coreBindings := x |}.

(** *** Assertions

    [assert(c)] of a debug build: the call goes on when [c] holds and the
    program is aborted otherwise.  A member function either returns or
    fails an assertion. *)
Inductive outcome (A : Type) : Type :=
| Returns (a : A)
| AssertionFailed.

Arguments Returns {A} a.
Arguments AssertionFailed {A}.

#[global] Instance outcome_ret : MRet outcome := fun A a => Returns a.

#[global] Instance outcome_bind : MBind outcome := fun A B f m =>
  match m with
  | Returns a => f a
  | AssertionFailed => AssertionFailed
  end.

Definition assert (c : bool) : outcome unit :=
  if c then Returns tt else AssertionFailed.

(** *** Properties: assignment, subscription, binding *)

(** What a subscriber of [contentView.onChange()] does when notified:
    [_contentView.update(shared_from_this(), property.get())]. *)
Definition run_subscriber `{Headers} (s : Subscriber) (w : Window) : Window :=
  match s with
  | update_contentView_helper =>
      set_helper (SingleChildHelper_update (_contentView w) (contentView w)) w
  end.

Definition notify_contentView `{Headers} (w : Window) : Window :=
  foldl (fun w s => run_subscriber s w) w (contentView_onChange w).

(** Modelled from the spec: [Property<T>::operator=], whose header
    Property.h is missing.  The spec has the window synchronise its
    user-facing properties through them; for [contentView = v] the value
    is stored and, when the property notifies for this change, the
    subscribers of [onChange()] run. *)
Definition assign_contentView `{Headers} (v : shared_ptr_View) (w : Window)
  : Window :=
  let old := contentView w in
  let w := set_contentView v w in
  if Property_notifies old v then notify_contentView w else w.

(** Modelled from the spec: [contentView.onChange() += s], of the same
    missing header; the subscriber is added after those already there. *)
Definition subscribe_contentView `{Headers} (s : Subscriber) (w : Window)
  : Window :=
  set_contentView_onChange (contentView_onChange w ++ [s]) w.

(** Modelled from the spec: [registerCoreCreatingProperties(this, &p1,
    ..., &pn)], a template of the missing View.h.  Only the registration
    it makes is recorded.  What a change of a registered property then
    sets off (the creation of the core, which ends in [bindViewCore]) is
    code of View.h and is not part of an assignment here: [bindViewCore]
    is an operation of its own below, and no result of this file says
    what an assignment leaves of the bindings. *)
Definition registerCoreCreatingProperties `{Headers}
    (ps : list WindowProperty) (w : Window) : Window :=
  set_coreCreatingProperties (coreCreatingProperties w ++ ps) w.

(** Modelled from the spec: [windowCore->core.bind(source)], of the
    missing Property.h.  The spec has the properties synchronised with
    the core "via property bindings"; a binding is recorded as an entry
    of the table: from now on the property [core] of the core is bound to
    the window's property [source], and an earlier binding of [core] is
    replaced. *)
Definition bind_property `{Headers} (core : CoreProperty)
    (source : WindowProperty) (w : Window) : Window :=
  set_coreBindings (<[core := source]> (coreBindings w)) w.

(** *** The member functions *)

(** [Window::Window(std::shared_ptr<ViewCoreFactory> viewCoreFactory)].
    [base] is the object as the base-class constructor
    [View(std::move(viewCoreFactory))] and the initialisation of the
    members leave it; the body then runs on it.  The two assignments come
    before any subscriber of this class is installed and are plain
    stores. *)
Definition Window_ctor `{Headers} (base : Window) : Window :=
  let w := set_viewCoreFactory (VIEW_CORE_REGISTER (viewCoreFactory base)) base in
  let w := set_visible false w in
  let w := set_allowedOrientations All w in
  let w :=
    registerCoreCreatingProperties
      [prop_visible; prop_contentView; prop_geometry; prop_contentGeometry] w in
  subscribe_contentView update_contentView_helper w.

(** [std::list<std::shared_ptr<View>> Window::childViews()], called from
    thread [t]. *)
Definition childViews `{Headers} (t : Thread) (w : Window)
  : outcome (list shared_ptr_View) :=
  _ ← assert (isMainThread t);
  match contentView w with
  | Some v => mret [Some v]
  | None => mret []
  end.

(** [void Window::removeAllChildViews() { contentView = nullptr; }] *)
Definition removeAllChildViews `{Headers} (w : Window) : Window :=
  assign_contentView None w.

(** [void Window::childViewStolen(const std::shared_ptr<View> &childView)],
    called from thread [t]. *)
Definition childViewStolen `{Headers} (t : Thread) (childView : shared_ptr_View)
    (w : Window) : outcome Window :=
  _ ← assert (isMainThread t);
  if bool_decide (childView = contentView w)
  then mret (assign_contentView None w)
  else mret w.

(** [void Window::bindViewCore()].  The core that
    [View::core<Window::Core>()] hands back is the one whose bindings the
    object records. *)
Definition Window_bindViewCore `{ViewBase} (w : Window) : Window :=
  let w := View_bindViewCore w in
  let w := bind_property core_contentView prop_contentView w in
  let w := bind_property core_title prop_title w in
  let w := bind_property core_allowedOrientations prop_allowedOrientations w in
  let w := bind_property core_currentOrientation prop_currentOrientation w in
  bind_property core_contentGeometry prop_internalContentGeometry w.

(** *** The life of a window

    What can be done to a constructed window: calls of its member
    functions, from some thread, and assignments to its public
    properties. *)
Inductive Op `{Headers} : Type :=
| call_childViews (t : Thread)
| call_removeAllChildViews
| call_childViewStolen (t : Thread) (childView : shared_ptr_View)
| call_bindViewCore
| assign_prop_contentView (v : shared_ptr_View)
| assign_prop_visible (b : bool)
| assign_prop_title (s : string)
| assign_prop_allowedOrientations (o : Orientation).

Definition step `{ViewBase} (op : Op) (w : Window) : outcome Window :=
  match op with
  | call_childViews t => _ ← childViews t w; mret w
  | call_removeAllChildViews => mret (removeAllChildViews w)
  | call_childViewStolen t c => childViewStolen t c w
  | call_bindViewCore => mret (Window_bindViewCore w)
  | assign_prop_contentView v => mret (assign_contentView v w)
  | assign_prop_visible b => mret (set_visible b w)
  | assign_prop_title s => mret (set_title s w)
  | assign_prop_allowedOrientations o => mret (set_allowedOrientations o w)
  end.

(** The states a window passes through: the one the constructor leaves,
    and every state a returning operation leads to. *)
Inductive reachable `{ViewBase} : Window -> Prop :=
| reachable_ctor base : reachable (Window_ctor base)
| reachable_step op w w' :
    reachable w -> step op w = Returns w' -> reachable w'.

(** The window after a sequence of operations, all of which return. *)
Fixpoint run `{ViewBase} (ops : list Op) (w : Window) : outcome Window :=
  match ops with
  | [] => mret w
  | op :: ops => w' ← step op w; run ops w'
  end.

(** *** The reading of a mask, for the statements below *)

(** Which of the four flags a mask has, in the order in which
    [orientationToString] tests them. *)
Definition flags_of `{Headers} (orientation : Orientation)
  : bool * bool * bool * bool :=
  (has_flag orientation Portrait, has_flag orientation LandscapeLeft,
   has_flag orientation LandscapeRight,
   has_flag orientation PortraitUpsideDown).

(** *** A sample platform

    One way the headers may read, to run the definitions on: the four
    orientations as the bits 1, 2, 4 and 8 and [All] as their union,
    rectangles as four integers, a helper that remembers the child it was
    given last, properties that notify when the value changes, and thread
    0 as the main thread. *)
Definition sample_headers : Headers := {|
  Portrait := 1;
  LandscapeLeft := 2;
  LandscapeRight := 4;
  PortraitUpsideDown := 8;
  All := 15;
  Rect := Z * Z * Z * Z;
  ViewCoreFactory := unit;
  VIEW_CORE_REGISTER := fun f => f;
  SingleChildHelper := shared_ptr_View;
  SingleChildHelper_update := fun _ child => child;
  Property_notifies := fun old new => negb (bool_decide (old = new));
  Thread := nat;
  isMainThread := fun t => Nat.eqb t 0
|}.

(** A base class that binds the core's inherited [visible]. *)
Definition sample_base : @ViewBase sample_headers := {|
  View_bindViewCore :=
    @bind_property sample_headers (core_of_View "visible") prop_visible
|}.

(** The object before the body of the constructor runs. *)
Definition sample_blank : @Window sample_headers := {|
  viewCoreFactory := tt : @ViewCoreFactory sample_headers;
  visible := true;
  allowedOrientations := 0;
  currentOrientation := 1;
  title := "";
  contentView := None;
  geometry := (0, 0, 0, 0) : @Rect sample_headers;
  contentGeometry := (0, 0, 0, 0) : @Rect sample_headers;
  internalContentGeometry := (0, 0, 0, 0) : @Rect sample_headers;
  contentView_onChange := [];
  _contentView := None : @SingleChildHelper sample_headers;
  coreCreatingProperties := [];
  coreBindings := ∅
|}.

(** A constructed window that was given view 7 as its content. *)
Definition sample_window : @Window sample_headers :=
  @assign_contentView sample_headers (Some 7%nat)
    (@Window_ctor sample_headers sample_blank).

(* ===================================================================== *)
(** ** Facts about Window                                                 *)
(* ===================================================================== *)

Section OrientationFacts.
Context `{Headers}.

Example orientationToString_sample_5 :
  @orientationToString sample_headers 5 = "Portrait | LandscapeRight".
Proof. reflexivity. Qed.

Example orientationToString_sample_All :
  @orientationToString sample_headers (@All sample_headers)
  = "Portrait | LandscapeLeft | LandscapeRight | PortraitUpsideDown".
Proof. reflexivity. Qed.

Example orientationToString_sample_8 :
  @orientationToString sample_headers 8 = "PortraitUpsideDown".
Proof. reflexivity. Qed.

Example orientationToString_sample_16 :
  @orientationToString sample_headers 16 = "".
Proof. reflexivity. Qed.

(** Splits on which of the four flags the mask has. *)
Ltac flag_cases o :=
  destruct (has_flag o Portrait) eqn:?,
           (has_flag o LandscapeLeft) eqn:?,
           (has_flag o LandscapeRight) eqn:?,
           (has_flag o PortraitUpsideDown) eqn:?.

Lemma orientationToString_joined (o : Orientation) :
  orientationToString o = joined_flag_names o.
Proof.
  unfold orientationToString, joined_flag_names, names_of_set_flags,
    orientation_flags.
  cbn [List.filter fst snd].
  flag_cases o; reflexivity.
Qed.

Lemma names_of_set_flags_exact (o : Orientation) (f : Orientation) (n : string) :
  In (f, n) orientation_flags ->
  (In n (names_of_set_flags o) <-> has_flag o f = true).
Proof.
  unfold names_of_set_flags, orientation_flags.
  cbn [List.filter fst snd].
  intros Hin. cbn [In] in Hin.
  destruct Hin as [E|[E|[E|[E|[]]]]]; injection E as <- <-;
    flag_cases o; cbn [List.map snd In]; split;
    solve [ intros _; reflexivity
          | intros _; tauto
          | intros Hn; exfalso; repeat (destruct Hn as [Hn|Hn]; [discriminate Hn|]); exact Hn
          | intros Hn; discriminate Hn ].
Qed.

Lemma names_of_set_flags_ordered (o : Orientation) :
  sublist (names_of_set_flags o)
    ["Portrait"; "LandscapeLeft"; "LandscapeRight"; "PortraitUpsideDown"].
Proof.
  unfold names_of_set_flags, orientation_flags.
  cbn [List.filter fst snd].
  flag_cases o; cbn [List.map snd]; repeat constructor.
Qed.

(** C4. For every orientation mask, [orientationToString] returns the
    names of the flags set in the mask joined by [" | "]: a name is in the
    result exactly when its flag is set; the names come in the fixed order
    Portrait, LandscapeLeft, LandscapeRight, PortraitUpsideDown; and the
    result is the empty string when none of the four flags is set. *)
Theorem orientationToString_spec (o : Orientation) :
  orientationToString o = String.concat " | " (names_of_set_flags o)
  /\ (forall f n, In (f, n) orientation_flags ->
        (In n (names_of_set_flags o) <-> has_flag o f = true))
  /\ sublist (names_of_set_flags o)
       ["Portrait"; "LandscapeLeft"; "LandscapeRight"; "PortraitUpsideDown"]
  /\ (has_flag o Portrait = false -> has_flag o LandscapeLeft = false ->
      has_flag o LandscapeRight = false ->
      has_flag o PortraitUpsideDown = false ->
      orientationToString o = "").
Proof.
  split; [ exact (orientationToString_joined o) |].
  split; [ intros f n; apply names_of_set_flags_exact |].
  split; [ apply names_of_set_flags_ordered |].
  intros HP HL HR HU.
  unfold orientationToString. rewrite HP, HL, HR, HU. reflexivity.
Qed.

(** **** The string determines the flags *)

Lemma orientationToString_flags (o : Orientation) :
  orientationToString o =
    let '(p, l, r, u) := flags_of o in
    let str := stringstream_new in
    let str := if p then put str "Portrait" else str in
    let str :=
      if l then
        put (if negb (tellp str =? 0) then put str " | " else str)
          "LandscapeLeft"
      else str in
    let str :=
      if r then
        put (if negb (tellp str =? 0) then put str " | " else str)
          "LandscapeRight"
      else str in
    let str :=
      if u then
        put (if negb (tellp str =? 0) then put str " | " else str)
          "PortraitUpsideDown"
      else str in
    str_of str.
Proof. reflexivity. Qed.

(** X1. Two masks are rendered as the same string exactly when they have
    the same of the four flags: the string tells which flags are set, and
    bits outside the four flags do not show in it. *)
Theorem orientationToString_faithful (o1 o2 : Orientation) :
  orientationToString o1 = orientationToString o2 <-> flags_of o1 = flags_of o2.
Proof.
  rewrite !orientationToString_flags. split.
  - destruct (flags_of o1) as [[[p1 l1] r1] u1],
             (flags_of o2) as [[[p2 l2] r2] u2].
    destruct p1, l1, r1, u1, p2, l2, r2, u2; intros E;
      first [ reflexivity | vm_compute in E; discriminate E ].
  - intros ->. reflexivity.
Qed.

(** X2. The result is the empty string only for a mask with none of the
    four flags, and it is never longer than the 62 characters of all four
    names with their three separators. *)
Theorem orientationToString_size (o : Orientation) :
  (orientationToString o = "" <-> flags_of o = (false, false, false, false))
  /\ (String.length (orientationToString o) <= 62)%nat.
Proof.
  rewrite orientationToString_flags.
  destruct (flags_of o) as [[[p l] r] u].
  destruct p, l, r, u; (split; [ split; intros E | vm_compute; lia ]);
    first [ reflexivity | vm_compute in E; discriminate E | discriminate E ].
Qed.

End OrientationFacts.

Section WindowFacts.
Context `{ViewBase}.

(** **** Assignment to contentView *)

Lemma run_subscriber_contentView (s : Subscriber) (w : Window) :
  contentView (run_subscriber s w) = contentView w.
Proof. destruct s. reflexivity. Qed.

Lemma notify_contentView_contentView (w : Window) :
  contentView (notify_contentView w) = contentView w.
Proof.
  unfold notify_contentView.
  generalize (contentView_onChange w) as subscribers.
  intros subscribers. revert w.
  induction subscribers as [|s subscribers IH]; intros w; simpl.
  - reflexivity.
  - rewrite IH. apply run_subscriber_contentView.
Qed.

Lemma assign_contentView_get (v : shared_ptr_View) (w : Window) :
  contentView (assign_contentView v w) = v.
Proof.
  unfold assign_contentView.
  destruct (Property_notifies (contentView w) v).
  - rewrite notify_contentView_contentView. reflexivity.
  - reflexivity.
Qed.

(** **** Assertions *)

Lemma assert_true (c : bool) : c = true -> assert c = Returns tt.
Proof. intros ->. reflexivity. Qed.

Lemma assert_false (c : bool) : c = false -> assert c = AssertionFailed.
Proof. intros ->. reflexivity. Qed.

Lemma childViews_on_main (t : Thread) (w : Window) :
  isMainThread t = true ->
  childViews t w =
    Returns (match contentView w with Some v => [Some v] | None => [] end).
Proof.
  intros Hmain. unfold childViews. rewrite (assert_true _ Hmain).
  destruct (contentView w); reflexivity.
Qed.

Lemma childViews_off_main (t : Thread) (w : Window) :
  isMainThread t = false -> childViews t w = AssertionFailed.
Proof.
  intros Hoff. unfold childViews. rewrite (assert_false _ Hoff). reflexivity.
Qed.

Lemma childViewStolen_on_main (t : Thread) (c : shared_ptr_View) (w : Window) :
  isMainThread t = true ->
  childViewStolen t c w =
    Returns (if bool_decide (c = contentView w)
             then assign_contentView None w else w).
Proof.
  intros Hmain. unfold childViewStolen. rewrite (assert_true _ Hmain).
  destruct (bool_decide (c = contentView w)); reflexivity.
Qed.

Lemma childViewStolen_off_main (t : Thread) (c : shared_ptr_View) (w : Window) :
  isMainThread t = false -> childViewStolen t c w = AssertionFailed.
Proof.
  intros Hoff. unfold childViewStolen. rewrite (assert_false _ Hoff).
  reflexivity.
Qed.

(** **** At most one child *)

Lemma childViews_without_content (t : Thread) (w : Window) :
  isMainThread t = true -> contentView w = None ->
  childViews t w = Returns [].
Proof.
  intros Hmain Hnone. rewrite (childViews_on_main t w Hmain), Hnone.
  reflexivity.
Qed.

Lemma reachable_run (ops : list Op) (w w' : Window) :
  reachable w -> run ops w = Returns w' -> reachable w'.
Proof.
  revert w. induction ops as [|op ops IH]; intros w Hw Hrun; simpl in Hrun.
  - injection Hrun as <-. exact Hw.
  - destruct (step op w) as [w1|] eqn:Hstep; simpl in Hrun.
    + apply (IH w1); [ exact (reachable_step op w w1 Hw Hstep) | exact Hrun ].
    + discriminate Hrun.
Qed.

Lemma run_snoc (ops : list Op) (op : Op) (w w1 w2 : Window) :
  run ops w = Returns w1 -> step op w1 = Returns w2 ->
  run (ops ++ [op]) w = Returns w2.
Proof.
  revert w. induction ops as [|o ops IH]; intros w Hrun Hstep; simpl in *.
  - injection Hrun as ->. rewrite Hstep. reflexivity.
  - destruct (step o w) as [w'|]; simpl in *.
    + exact (IH w' Hrun Hstep).
    + discriminate Hrun.
Qed.

(** A state is reachable exactly when some sequence of returning
    operations leads to it from a freshly constructed window. *)
Lemma reachable_iff_run (w : Window) :
  reachable w <->
  exists base ops, run ops (Window_ctor base) = Returns w.
Proof.
  split.
  - induction 1 as [base | op w w' _ (base & ops & Hrun) Hstep].
    + exists base, []. reflexivity.
    + exists base, (ops ++ [op]). exact (run_snoc ops op _ w w' Hrun Hstep).
  - intros (base & ops & Hrun).
    exact (reachable_run ops _ w (reachable_ctor base) Hrun).
Qed.

Lemma childViews_returns_inv (t : Thread) (w : Window)
    (l : list shared_ptr_View) :
  childViews t w = Returns l ->
  l = match contentView w with Some v => [Some v] | None => [] end
  /\ (length l <= 1)%nat.
Proof.
  unfold childViews. destruct (assert (isMainThread t)); simpl.
  - destruct (contentView w); intros [= <-]; (split; [ reflexivity |]);
      simpl; lia.
  - discriminate.
Qed.

(** C2. A reachable window has at most one child view.  Whenever
    [childViews] returns, its result is the one-element list holding the
    content view when there is one and the empty list otherwise, and on
    the main thread it does return.  Every operation that returns leads
    to a reachable state again, where the same holds.  After
    [removeAllChildViews] the content view is null and there is no child.
    [childViewStolen], on the main thread, returns a reachable state: with
    no content view and no child when the stolen view was the content
    view, and the window as it was otherwise. *)
Theorem Window_single_child (w : Window) :
  reachable w ->
  (forall t l, childViews t w = Returns l ->
     l = match contentView w with Some v => [Some v] | None => [] end
     /\ (length l <= 1)%nat)
  /\ (forall t, isMainThread t = true ->
        childViews t w =
          Returns (match contentView w with Some v => [Some v] | None => [] end))
  /\ (forall op w', step op w = Returns w' ->
        reachable w' /\
        forall t l', childViews t w' = Returns l' -> (length l' <= 1)%nat)
  /\ (reachable (removeAllChildViews w) /\
      contentView (removeAllChildViews w) = None /\
      forall t, isMainThread t = true ->
        childViews t (removeAllChildViews w) = Returns [])
  /\ (forall t c, isMainThread t = true ->
        exists w',
          childViewStolen t c w = Returns w' /\ reachable w' /\
          if bool_decide (c = contentView w)
          then contentView w' = None /\ childViews t w' = Returns []
          else w' = w).
Proof.
  intros Hreach.
  split; [ intros t l; apply childViews_returns_inv |].
  split; [ intros t; apply childViews_on_main |].
  split.
  { intros op w' Hstep. split.
    - exact (reachable_step op w w' Hreach Hstep).
    - intros t l' Hl'. exact (proj2 (childViews_returns_inv t w' l' Hl')). }
  assert (Hremoved : contentView (removeAllChildViews w) = None)
    by apply assign_contentView_get.
  split.
  { split; [| split ].
    - exact (reachable_step call_removeAllChildViews w _ Hreach eq_refl).
    - exact Hremoved.
    - intros t Hmain. exact (childViews_without_content t _ Hmain Hremoved). }
  intros t c Hmain.
  pose proof (childViewStolen_on_main t c w Hmain) as Hstolen.
  eexists. split; [ exact Hstolen |].
  split; [ exact (reachable_step (call_childViewStolen t c) w _ Hreach Hstolen) |].
  destruct (bool_decide (c = contentView w)).
  - split; [ exact Hremoved |].
    exact (childViews_without_content t _ Hmain Hremoved).
  - reflexivity.
Qed.

(** C3. [childViews] and [childViewStolen] assert that they run on the
    main thread: called from the main thread both return, so the failing
    branch of the assertion is not taken, while from any other thread the
    assertion fails. *)
Theorem main_thread_assertions (t : Thread) (w : Window) (c : shared_ptr_View) :
  isMainThread t = true ->
  (exists l, childViews t w = Returns l)
  /\ (exists w', childViewStolen t c w = Returns w')
  /\ childViews t w <> AssertionFailed
  /\ childViewStolen t c w <> AssertionFailed
  /\ (forall t', isMainThread t' = false ->
        childViews t' w = AssertionFailed /\
        childViewStolen t' c w = AssertionFailed).
Proof.
  intros Hmain.
  rewrite (childViews_on_main t w Hmain), (childViewStolen_on_main t c w Hmain).
  split; [ eexists; reflexivity |].
  split; [ eexists; reflexivity |].
  split; [ discriminate |].
  split; [ discriminate |].
  intros t' Hoff. split.
  - exact (childViews_off_main t' w Hoff).
  - exact (childViewStolen_off_main t' c w Hoff).
Qed.

(** **** Bindings and registrations *)

Lemma bind_property_lookup (core : CoreProperty) (source : WindowProperty)
    (w : Window) :
  coreBindings (bind_property core source w) !! core = Some source.
Proof. unfold bind_property. simpl. apply lookup_insert_eq. Qed.

Lemma bind_property_lookup_other (core core' : CoreProperty)
    (source : WindowProperty) (w : Window) :
  core <> core' ->
  coreBindings (bind_property core source w) !! core' = coreBindings w !! core'.
Proof. intros Hne. unfold bind_property. simpl. by apply lookup_insert_ne. Qed.

Lemma Window_ctor_coreCreatingProperties (base : Window) :
  coreCreatingProperties (Window_ctor base) =
  coreCreatingProperties base ++
    [prop_visible; prop_contentView; prop_geometry; prop_contentGeometry].
Proof. reflexivity. Qed.

(** C1. [bindViewCore] binds the core's contentView to the window's
    contentView, its title to title, its allowedOrientations to
    allowedOrientations, its currentOrientation to currentOrientation and
    its contentGeometry to internalContentGeometry, and leaves the
    bindings of the inherited core properties as the base class made
    them; the constructor registers visible and geometry as core-creating
    properties. *)
Theorem bindViewCore_bindings (w base : Window) :
  coreBindings (Window_bindViewCore w) !! core_contentView
    = Some prop_contentView
  /\ coreBindings (Window_bindViewCore w) !! core_title = Some prop_title
  /\ coreBindings (Window_bindViewCore w) !! core_allowedOrientations
    = Some prop_allowedOrientations
  /\ coreBindings (Window_bindViewCore w) !! core_currentOrientation
    = Some prop_currentOrientation
  /\ coreBindings (Window_bindViewCore w) !! core_contentGeometry
    = Some prop_internalContentGeometry
  /\ (forall name,
        coreBindings (Window_bindViewCore w) !! core_of_View name
        = coreBindings (View_bindViewCore w) !! core_of_View name)
  /\ prop_visible ∈ coreCreatingProperties (Window_ctor base)
  /\ prop_geometry ∈ coreCreatingProperties (Window_ctor base).
Proof.
  unfold Window_bindViewCore.
  repeat split.
  - do 4 (rewrite bind_property_lookup_other by discriminate).
    apply bind_property_lookup.
  - do 3 (rewrite bind_property_lookup_other by discriminate).
    apply bind_property_lookup.
  - do 2 (rewrite bind_property_lookup_other by discriminate).
    apply bind_property_lookup.
  - rewrite bind_property_lookup_other by discriminate.
    apply bind_property_lookup.
  - apply bind_property_lookup.
  - intros name.
    do 5 (rewrite bind_property_lookup_other by discriminate).
    reflexivity.
  - rewrite Window_ctor_coreCreatingProperties. set_solver.
  - rewrite Window_ctor_coreCreatingProperties. set_solver.
Qed.

End WindowFacts.

Section WindowLife.
Context `{ViewBase}.

(** **** Content view in, child views out *)

(** X4. What is assigned to [contentView] is what [childViews] reports
    next: the assigned view alone, or nothing after [nullptr]; an earlier
    content view is gone, and of two assignments the later one stands. *)
Theorem contentView_round_trip (t : Thread) (v1 v2 : shared_ptr_View)
    (w : Window) :
  isMainThread t = true ->
  childViews t (assign_contentView v2 w) =
    Returns (match v2 with Some x => [Some x] | None => [] end)
  /\ childViews t (assign_contentView v2 (assign_contentView v1 w)) =
       childViews t (assign_contentView v2 w)
  /\ contentView (assign_contentView v2 (assign_contentView v1 w)) = v2.
Proof.
  intros Hmain.
  rewrite !(childViews_on_main _ _ Hmain), !assign_contentView_get.
  repeat split; reflexivity.
Qed.

(** X5. Once [childViewStolen] has returned for a view, that view is not
    among the child views, whether or not it was the content view before;
    and reporting the same view as stolen again changes nothing. *)
Theorem childViewStolen_gone (t : Thread) (v : ViewRef) (w w' : Window) :
  isMainThread t = true ->
  childViewStolen t (Some v) w = Returns w' ->
  contentView w' <> Some v
  /\ (exists l, childViews t w' = Returns l /\ Some v ∉ l)
  /\ childViewStolen t (Some v) w' = Returns w'.
Proof.
  intros Hmain Hstolen.
  rewrite (childViewStolen_on_main t _ w Hmain) in Hstolen.
  assert (Hcontent : contentView w' <> Some v).
  { injection Hstolen as Hw'. rewrite <- Hw'.
    case_bool_decide as E.
    - rewrite assign_contentView_get. discriminate.
    - congruence. }
  split; [ exact Hcontent |].
  split.
  - rewrite (childViews_on_main t w' Hmain).
    destruct (contentView w') as [x|]; eexists; (split; [ reflexivity |]).
    + intros Hin. apply list_elem_of_singleton in Hin. congruence.
    + apply not_elem_of_nil.
  - rewrite (childViewStolen_on_main t _ w' Hmain).
    rewrite bool_decide_eq_false_2 by congruence. reflexivity.
Qed.

(** **** The subscriber the constructor installs *)

(** X8. The constructor ties the helper [_contentView] to the property:
    on a window whose base class installed no subscriber, an assignment
    to [contentView] that notifies hands the new child to the helper, and
    one that does not notify leaves the helper alone. *)
Theorem ctor_follows_contentView (base : Window) (v : shared_ptr_View) :
  contentView_onChange base = [] ->
  _contentView (assign_contentView v (Window_ctor base)) =
    if Property_notifies (contentView base) v
    then SingleChildHelper_update (_contentView base) v
    else _contentView base.
Proof.
  intros Hnone. unfold assign_contentView, notify_contentView. simpl.
  rewrite Hnone. simpl.
  destruct (Property_notifies (contentView base) v); reflexivity.
Qed.

End WindowLife.

(* ===================================================================== *)
(** ** Facts about UiLength                                               *)
(* ===================================================================== *)

Section UiLengthFacts.
Import UiLength.

Lemma Unit_value_inj u v : Unit_value u = Unit_value v -> u = v.
Proof. destruct u, v; simpl; intros E; try reflexivity; discriminate E. Qed.

Lemma Unit_value_eqb u v : (Unit_value u =? Unit_value v) = bool_decide (u = v).
Proof.
  destruct (decide (u = v)) as [->|N].
  - rewrite Z.eqb_refl. symmetry. by apply bool_decide_eq_true.
  - rewrite (bool_decide_eq_false_2 _ N). apply Z.eqb_neq.
    intros E. apply N, Unit_value_inj, E.
Qed.

(** IEEE comparison on the specification side is symmetric in its
    "equal" outcome. *)
Lemma SFcompare_Eq_sym x y :
  SFcompare x y = Some Eq -> SFcompare y x = Some Eq.
Proof.
  destruct x as [sx| sx | |sx mx ex], y as [sy|sy| |sy my ey]; simpl;
    try discriminate; try reflexivity;
    try (destruct sx; discriminate); try (destruct sy; discriminate).
  - destruct sx, sy; simpl; intros; congruence.
  - destruct sx, sy; try discriminate;
      destruct (ex ?= ey) eqn:E; try discriminate;
      apply Z.compare_eq in E; subst ey;
      destruct (Pos.compare_cont Eq mx my) eqn:M; try discriminate;
      apply Pos.compare_eq in M; subst my; intros _;
      rewrite Z.compare_refl;
      change (Pos.compare_cont Eq mx mx) with (mx ?= mx)%positive;
      rewrite Pos.compare_refl; reflexivity.
Qed.

Lemma SFeqb_sym x y : SFeqb x y = SFeqb y x.
Proof.
  unfold SFeqb.
  destruct (SFcompare x y) as [[]|] eqn:Exy.
  - by rewrite (SFcompare_Eq_sym _ _ Exy).
  - destruct (SFcompare y x) as [[]|] eqn:Eyx; try reflexivity.
    apply SFcompare_Eq_sym in Eyx. congruence.
  - destruct (SFcompare y x) as [[]|] eqn:Eyx; try reflexivity.
    apply SFcompare_Eq_sym in Eyx. congruence.
  - destruct (SFcompare y x) as [[]|] eqn:Eyx; try reflexivity.
    apply SFcompare_Eq_sym in Eyx. congruence.
Qed.

Lemma double_eqb_sym (x y : float) : PrimFloat.eqb x y = PrimFloat.eqb y x.
Proof. rewrite !FloatAxioms.eqb_spec. apply SFeqb_sym. Qed.

End UiLengthFacts.

Section UiLengthClaims.
Import UiLength.

Example UiLength_nan_not_equal_to_itself :
  eq (make sem nan) (make sem nan) = false.
Proof. reflexivity. Qed.

Example UiLength_zeros_equal :
  eq (make pixel96 0%float) (make pixel96 (-0)%float) = true.
Proof. reflexivity. Qed.

Example UiLength_units_differ :
  eq (make sem 1%float) (make realPixel 1%float) = false.
Proof. reflexivity. Qed.

Lemma UiLength_eq_true_iff (a b : t) :
  eq a b = true <->
  unit a = unit b /\ PrimFloat.eqb (value a) (value b) = true.
Proof.
  unfold eq. rewrite Unit_value_eqb, andb_true_iff, bool_decide_eq_true.
  reflexivity.
Qed.

Lemma UiLength_eq_sym (a b : t) : eq a b = eq b a.
Proof.
  unfold eq.
  rewrite (Z.eqb_sym (Unit_value (unit a))), (double_eqb_sym (value a)).
  reflexivity.
Qed.

Lemma UiLength_eq_refl_iff (a : t) :
  eq a a = true <-> PrimFloat.eqb (value a) (value a) = true.
Proof.
  rewrite UiLength_eq_true_iff. split.
  - intros [_ Hv]. exact Hv.
  - intros Hv. split; [ reflexivity | exact Hv ].
Qed.

(** C6. [a == b] holds exactly when the units are equal and the values
    are equal as doubles; [a != b] is its negation; [==] is symmetric; and
    [a == a] holds exactly when the value of [a] compares equal to itself,
    that is, when it is not a NaN. *)
Theorem UiLength_eq_spec (a b : t) :
  (eq a b = true <->
     unit a = unit b /\ PrimFloat.eqb (value a) (value b) = true)
  /\ ne a b = negb (eq a b)
  /\ eq a b = eq b a
  /\ (eq a a = true <-> PrimFloat.eqb (value a) (value a) = true)
  /\ (eq a a = true <-> is_nan (value a) = false).
Proof.
  split; [ apply UiLength_eq_true_iff |].
  split; [ reflexivity |].
  split; [ apply UiLength_eq_sym |].
  split; [ apply UiLength_eq_refl_iff |].
  rewrite UiLength_eq_refl_iff. unfold is_nan.
  destruct (PrimFloat.eqb (value a) (value a)); simpl; split; congruence.
Qed.

(** The test does recognise a conversion when it sees one: a function
    that re-expresses a length in a requested unit passes it. *)
Example converts_from_recognises_conversion :
  converts_from [] [TyUiLength; TyUnit] TyUiLength
    (fun a u => make u (value a)).
Proof.
  simpl. exists (make sem 1%float), pixel96. split.
  - discriminate.
  - intros u [<-|[]]. discriminate.
Qed.




End UiLengthClaims.

Section UiLengthEquality.
Import UiLength.

(** **** IEEE equality, on the specification side *)

(** Two values compare equal only when they are the same value or are
    both zeros, of whatever sign. *)
Lemma SFcompare_Eq_inv x y :
  SFcompare x y = Some Eq ->
  x = y \/ exists sx sy, x = S754_zero sx /\ y = S754_zero sy.
Proof.
  destruct x as [sx| sx | |sx mx ex], y as [sy|sy| |sy my ey]; simpl;
    try discriminate;
    try (destruct sx; discriminate); try (destruct sy; discriminate).
  - intros _. right. exists sx, sy. split; reflexivity.
  - destruct sx, sy; try discriminate; intros _; left; reflexivity.
  - destruct sx, sy; try discriminate;
      destruct (ex ?= ey) eqn:E; try discriminate;
      apply Z.compare_eq in E; subst ey;
      destruct (Pos.compare_cont Eq mx my) eqn:M; try discriminate;
      apply Pos.compare_eq in M; subst my; intros _; left; reflexivity.
Qed.

Lemma SFcompare_Eq_trans x y z :
  SFcompare x y = Some Eq -> SFcompare y z = Some Eq ->
  SFcompare x z = Some Eq.
Proof.
  intros Hxy Hyz.
  destruct (SFcompare_Eq_inv x y Hxy) as [->|(sx & sy & -> & ->)].
  - exact Hyz.
  - destruct (SFcompare_Eq_inv _ z Hyz) as [<-|(sy' & sz & _ & ->)];
      reflexivity.
Qed.

Lemma SFeqb_true x y : SFeqb x y = true <-> SFcompare x y = Some Eq.
Proof.
  unfold SFeqb. destruct (SFcompare x y) as [[]|]; split;
    first [ reflexivity | discriminate ].
Qed.

Lemma double_eqb_trans (x y z : float) :
  PrimFloat.eqb x y = true -> PrimFloat.eqb y z = true ->
  PrimFloat.eqb x z = true.
Proof.
  rewrite !FloatAxioms.eqb_spec, !SFeqb_true. apply SFcompare_Eq_trans.
Qed.

Lemma double_eqb_refl_of (x y : float) :
  PrimFloat.eqb x y = true -> PrimFloat.eqb x x = true.
Proof.
  intros Hxy. apply (double_eqb_trans x y x Hxy).
  rewrite double_eqb_sym. exact Hxy.
Qed.

Lemma double_eqb_true_iff (x y : float) :
  PrimFloat.eqb x y = true <->
  is_nan x = false /\ (x = y \/ (is_zero x = true /\ is_zero y = true)).
Proof.
  unfold is_nan, is_zero. split.
  - intros Hxy. split.
    + rewrite (double_eqb_refl_of x y Hxy). reflexivity.
    + pose proof Hxy as Hspec.
      rewrite FloatAxioms.eqb_spec, SFeqb_true in Hspec.
      destruct (SFcompare_Eq_inv _ _ Hspec) as [E|(sx & sy & Ex & Ey)].
      * left. apply Prim2SF_inj. exact E.
      * right. rewrite !FloatAxioms.eqb_spec, Ex, Ey.
        split; reflexivity.
  - intros [Hnan [<-|[Hx Hy]]].
    + destruct (PrimFloat.eqb x x); [ reflexivity | discriminate Hnan ].
    + apply (double_eqb_trans x zero y Hx).
      rewrite double_eqb_sym. exact Hy.
Qed.

(** X9. [==] on lengths is a partial equivalence: besides being
    symmetric it is transitive, and a length that is equal to any length
    is equal to itself; so [==] is an equivalence on the lengths whose
    value is not a NaN. *)
Theorem UiLength_eq_partial_equivalence (a b c : t) :
  (eq a b = true -> eq b c = true -> eq a c = true)
  /\ (eq a b = true -> eq a a = true /\ eq b b = true)
  /\ (eq a b = true -> ne b c = ne a c).
Proof.
  assert (Htrans : forall a b c,
            eq a b = true -> eq b c = true -> eq a c = true).
  { clear a b c. intros a b c.
    rewrite !UiLength_eq_true_iff.
    intros [Hu1 Hv1] [Hu2 Hv2]. split.
    - congruence.
    - exact (double_eqb_trans _ _ _ Hv1 Hv2). }
  split; [ apply Htrans |].
  split.
  - intros Hab. pose proof Hab as Hba. rewrite UiLength_eq_sym in Hba.
    split; [ exact (Htrans a b a Hab Hba) | exact (Htrans b a b Hba Hab) ].
  - intros Hab. pose proof Hab as Hba. rewrite UiLength_eq_sym in Hba.
    unfold ne. f_equal.
    destruct (eq b c) eqn:Hbc, (eq a c) eqn:Hac; try reflexivity.
    + rewrite (Htrans a b c Hab Hbc) in Hac. discriminate Hac.
    + rewrite (Htrans b a c Hba Hac) in Hbc. discriminate Hbc.
Qed.

(** X10. Two lengths are [==] exactly when their units agree, the value
    is not a NaN, and the values are the same double or are both zero:
    apart from the sign of a zero, equal lengths are identical. *)
Theorem UiLength_eq_identity (a b : t) :
  (eq a b = true <->
     unit a = unit b /\ is_nan (value a) = false /\
     (value a = value b \/
      (is_zero (value a) = true /\ is_zero (value b) = true)))
  /\ (eq a b = true -> is_zero (value a) = false -> a = b).
Proof.
  assert (Hiff : eq a b = true <->
     unit a = unit b /\ is_nan (value a) = false /\
     (value a = value b \/
      (is_zero (value a) = true /\ is_zero (value b) = true))).
  { rewrite UiLength_eq_true_iff, double_eqb_true_iff. reflexivity. }
  split; [ exact Hiff |].
  intros Hab Hnz. apply Hiff in Hab.
  destruct Hab as (Hu & _ & [Hv|[Hz _]]).
  - destruct a, b; simpl in *. congruence.
  - congruence.
Qed.

(** The two zeros are equal lengths and still different values: the
    sign shows when something is divided by them. *)
Example UiLength_zeros_distinct :
  eq (make sem 0%float) (make sem (-0)%float) = true
  /\ make sem 0%float <> make sem (-0)%float.
Proof.
  split; [ reflexivity |].
  intros E.
  apply (f_equal (fun l => PrimFloat.ltb (1 / value l) 0)) in E.
  vm_compute in E. discriminate E.
Qed.

End UiLengthEquality.

Section Construction.
Context `{Headers}.

(** C7. A window leaves its constructor hidden and free in its
    orientation: [visible] is false and [allowedOrientations] is
    [Orientation::All]; a default-constructed [UiLength] has unit sem and
    value 0. *)
Theorem fresh_objects (base : Window) :
  visible (Window_ctor base) = false
  /\ allowedOrientations (Window_ctor base) = All
  /\ UiLength.unit UiLength.default = UiLength.sem
  /\ UiLength.value UiLength.default = 0%float.
Proof.
  split; [ reflexivity |].
  split; [ reflexivity |].
  split; reflexivity.
Qed.

End Construction.

(* ===================================================================== *)
(** ** The theorems at the sample platform                                *)
(* ===================================================================== *)

(** The sample window is reachable, holds view 7 as its only child, and
    has none once its children are removed. *)
Lemma Window_single_child_sample :
  @reachable sample_headers sample_base sample_window
  /\ @childViews sample_headers 0%nat sample_window = Returns [Some 7%nat]
  /\ @childViews sample_headers 0%nat
       (@removeAllChildViews sample_headers sample_window) = Returns [].
Proof.
  assert (Hreach : @reachable sample_headers sample_base sample_window).
  { apply (@reachable_run sample_headers sample_base
             [@assign_prop_contentView sample_headers (Some 7%nat)]
             (@Window_ctor sample_headers sample_blank)).
    - apply reachable_ctor.
    - reflexivity. }
  split; [ exact Hreach |].
  destruct (@Window_single_child sample_headers sample_base sample_window Hreach)
    as (_ & Hchildren & _ & (_ & _ & Hremoved) & _).
  split.
  - exact (Hchildren 0%nat eq_refl).
  - exact (Hremoved 0%nat eq_refl).
Defined.

(** On the sample platform thread 0 is the main thread: calls from it
    pass the assertions, a call from thread 1 does not. *)
Lemma main_thread_assertions_sample :
  @isMainThread sample_headers 0%nat = true
  /\ @childViews sample_headers 0%nat sample_window <> AssertionFailed
  /\ @childViewStolen sample_headers 0%nat (Some 7%nat) sample_window
     <> AssertionFailed
  /\ @childViews sample_headers 1%nat sample_window = AssertionFailed.
Proof.
  split; [ reflexivity |].
  destruct (@main_thread_assertions sample_headers 0%nat sample_window
              (Some 7%nat) eq_refl)
    as (_ & _ & Hchildren & Hstolen & Hoff).
  split; [ exact Hchildren |].
  split; [ exact Hstolen |].
  exact (proj1 (Hoff 1%nat eq_refl)).
Defined.

(** On the sample platform, from the main thread: view 7 assigned over
    view 3 is the only child reported. *)
Lemma contentView_round_trip_sample :
  @isMainThread sample_headers 0%nat = true
  /\ @childViews sample_headers 0%nat
       (@assign_contentView sample_headers (Some 7%nat)
          (@assign_contentView sample_headers (Some 3%nat)
             (@Window_ctor sample_headers sample_blank)))
     = Returns [Some 7%nat].
Proof.
  split; [ reflexivity |].
  destruct (@contentView_round_trip sample_headers 0%nat (Some 3%nat)
              (Some 7%nat) (@Window_ctor sample_headers sample_blank) eq_refl)
    as (Hone & Htwo & _).
  rewrite Htwo. exact Hone.
Defined.

(** On the sample platform, view 7 stolen from the sample window is no
    longer its content view. *)
Lemma childViewStolen_gone_sample :
  @isMainThread sample_headers 0%nat = true
  /\ @childViewStolen sample_headers 0%nat (Some 7%nat) sample_window
     = Returns (@removeAllChildViews sample_headers sample_window)
  /\ @contentView sample_headers
       (@removeAllChildViews sample_headers sample_window) <> Some 7%nat.
Proof.
  split; [ reflexivity |].
  split; [ reflexivity |].
  exact (proj1 (@childViewStolen_gone sample_headers 0%nat 7%nat sample_window
                  (@removeAllChildViews sample_headers sample_window)
                  eq_refl eq_refl)).
Defined.

(** On the sample platform the helper of a fresh window remembers the
    view assigned as content. *)
Lemma ctor_follows_contentView_sample :
  @contentView_onChange sample_headers sample_blank = []
  /\ @_contentView sample_headers
       (@assign_contentView sample_headers (Some 7%nat)
          (@Window_ctor sample_headers sample_blank))
     = (Some 7%nat : @SingleChildHelper sample_headers).
Proof.
  split; [ reflexivity |].
  exact (@ctor_follows_contentView sample_headers sample_blank (Some 7%nat)
           eq_refl).
Defined.
